(** * Gemini image-captioning service: main.py

    A shallow embedding of [main.py]: the start-up code (credential lookup
    and construction of the model handle) and the two request handlers
    [read_root] and [caption_image], with the calls the handlers make to
    their collaborators (the upload's [read], [Image.open] and
    [model.generate_content]) recorded in a call log.  Two facts about the
    libraries decide what the handler does with a failure and are part of
    the model: what the name [genai.APIError] evaluates to, and that
    building a [JSONResponse] encodes its body. *)

From Stdlib Require Import ZArith NArith Ascii String.
From Stdlib Require Strings.Byte.
From stdpp Require Import gmap list fin_maps.

Local Open Scope Z_scope.

(** ** Python text

    A Python [str] is a sequence of Unicode code points.  Every literal of
    [main.py] is ASCII and is written here through [lit]. *)

Module Py.

Abbreviation str := (list N).

Definition lit (s : string) : str :=
  List.map N_of_ascii (list_ascii_of_string s).

(** [s.startswith(prefix)]. *)
Fixpoint startswith (s prefix : str) : bool :=
  match prefix, s with
  | [], _ => true
  | _ :: _, [] => false
  | p :: prefix', c :: s' => if N.eqb c p then startswith s' prefix' else false
  end.

(** [str.isspace] on one code point: the characters of bidirectional type
    WS, B or S and those of category Zs. *)
Definition isspace (c : N) : bool :=
  ((9 <=? c) && (c <=? 13) ||
   (28 <=? c) && (c <=? 32) ||
   (c =? 133) || (c =? 160) || (c =? 5760) ||
   (8192 <=? c) && (c <=? 8202) ||
   (c =? 8232) || (c =? 8233) || (c =? 8239) || (c =? 8287) ||
   (c =? 12288))%N.

Fixpoint lstrip (s : str) : str :=
  match s with
  | [] => []
  | c :: s' => if isspace c then lstrip s' else s
  end.

Definition rstrip (s : str) : str := rev (lstrip (rev s)).

(** [s.strip()]: leading, then trailing white space removed. *)
Definition strip (s : str) : str := rstrip (lstrip s).

(** [needle in s]. *)
Fixpoint contains (s needle : str) : bool :=
  startswith s needle ||
  match s with
  | [] => false
  | _ :: s' => contains s' needle
  end.

(** Truth value of a string: [not s] holds of the empty string only. *)
Definition truthy (s : str) : bool :=
  match s with [] => false | _ :: _ => true end.

(** Lone surrogates, the code points that [s.encode("utf-8")] refuses. *)
Definition is_surrogate (c : N) : bool := ((55296 <=? c) && (c <=? 57343))%N.

(** [s.encode("utf-8")] succeeds. *)
Definition encodable (s : str) : bool :=
  forallb (fun c => negb (is_surrogate c)) s.

End Py.

(** ** Exceptions and outcomes

    An exception raised by a callee is kept as the three things the handler
    can observe of it: its class, whether it is an instance of the provider's
    error class (the class the first [except] clause asks for), and the text
    [str(e)] that an f-string inserts for it.  Exceptions here are instances
    of [Exception], the class the second [except] clause names. *)

Record PyException := {
  exn_type : Py.str;
  exn_is_APIError : bool;
  exn_str : Py.str
}.

Inductive outcome (A : Type) : Type :=
| Ok (a : A)
| Raise (e : PyException).
Arguments Ok {A} a.
Arguments Raise {A} e.

Definition AttributeError (msg : Py.str) : PyException :=
  {| exn_type := Py.lit "AttributeError"; exn_is_APIError := false; exn_str := msg |}.

Definition ValueError (msg : Py.str) : PyException :=
  {| exn_type := Py.lit "ValueError"; exn_is_APIError := false; exn_str := msg |}.

Definition RuntimeError (msg : Py.str) : PyException :=
  {| exn_type := Py.lit "RuntimeError"; exn_is_APIError := false; exn_str := msg |}.

(** What evaluating the expression [genai.APIError] gives, each time an
    exception reaches the first [except] clause: a class, or nothing, the
    module having no attribute of that name.  The library the module
    imports, [google.generativeai], defines no [APIError]; a class is there
    only if one has been put under that name. *)
Inductive genai_attribute : Type :=
| exception_class
| no_such_attribute.

(** ** Requests and responses *)

(** The upload handed to the handler: [read] is what [await file.read()]
    yields, the whole body or an I/O error. *)
Record UploadFile := {
  filename : option Py.str;
  content_type : option Py.str;
  read : outcome (list Byte.byte)
}.

(** The JSON values the handlers build: strings, and [null] for a [None]
    file name. *)
Inductive json : Type :=
| JNull
| JString (s : Py.str).

Definition json_of_optional (o : option Py.str) : json :=
  match o with
  | None => JNull
  | Some s => JString s
  end.

(** A dict literal, keys in the order written. *)
Definition json_object := list (Py.str * json).

Definition json_encodable (j : json) : bool :=
  match j with
  | JNull => true
  | JString s => Py.encodable s
  end.

(** [json.dumps(c, ensure_ascii=False, ...).encode("utf-8")] succeeds: no
    key and no string of the object holds a lone surrogate. *)
Definition renders (c : json_object) : bool :=
  forallb (fun kv => Py.encodable (fst kv) && json_encodable (snd kv)) c.

Record JSONResponse := {
  status_code : Z;
  content : json_object
}.

(** How a handler ends: it returns a response, raises [HTTPException]
    (which the framework renders as the status with a [detail] body), or
    lets another exception out. *)
Inductive result : Type :=
| Return (r : JSONResponse)
| RaiseHTTPException (status : Z) (detail : Py.str)
| RaiseException (e : PyException).

(** [response.text] is a property and may itself raise. *)
Record GenerateContentResponse := {
  text : outcome Py.str
}.

(** ** Prompt text *)

Definition IMAGE_CAPTIONING_PROMPT : Py.str := Py.lit "
Describe this image in detail. Focus on the main subjects, actions, setting, colors, and any discernible emotions or atmosphere.
Provide a concise yet comprehensive caption, suitable for accessibility purposes or a brief summary.
Make sure to include any notable features or context that would help someone understand the image without seeing it.
Translate to bahasa indonesia if necessary.
".

Definition MODEL_NAME : Py.str := Py.lit "gemini-2.5-flash-preview-04-17".

(** ** The collaborators and the call log *)

Section Service.

(** The decoded image and the model handle are opaque values of the imaging
    and provider libraries; the library entry points the module calls are
    taken as given. *)
Variable Image : Type.
Variable GenerativeModelHandle : Type.

(** [Image.open(io.BytesIO(data))]. *)
Variable Image_open : list Byte.byte -> outcome Image.
(** [load_dotenv()]: the process environment it leaves, or the exception
    it raises (it opens and decodes a file). *)
Variable load_dotenv :
  gmap (list N) (list N) -> outcome (gmap (list N) (list N)).
(** [genai.configure(api_key=key)]. *)
Variable genai_configure : Py.str -> outcome unit.
(** [genai.GenerativeModel(name)]. *)
Variable GenerativeModel : Py.str -> outcome GenerativeModelHandle.
(** The name [genai.APIError]. *)
Variable genai_APIError : genai_attribute.
(** The [UnicodeEncodeError] that encoding a body raises; its text names
    the offending character and its position in the rendered body. *)
Variable JSONResponse_error : json_object -> PyException.

(** One element of the [contents] list given to the model. *)
Inductive Part : Type :=
| PartText (s : Py.str)
| PartImage (img : Image).

(** [m.generate_content(contents)]. *)
Variable generate_content :
  GenerativeModelHandle -> list Part -> outcome GenerateContentResponse.

(** The calls a handler makes, oldest first. *)
Inductive call : Type :=
| call_read
| call_Image_open (data : list Byte.byte)
| call_generate_content (m : GenerativeModelHandle) (contents : list Part).

(** Computations that may raise and that append to the call log. *)
Definition M (A : Type) : Type := list call -> outcome A * list call.

Definition ret {A} (a : A) : M A := fun log => (Ok a, log).

Definition bind {A B} (m : M A) (k : A -> M B) : M B :=
  fun log =>
    match m log with
    | (Ok a, log') => k a log'
    | (Raise e, log') => (Raise e, log')
    end.

(** Perform a call: log it, then yield what the callee yields. *)
Definition perform {A} (c : call) (r : outcome A) : M A :=
  fun log => (r, log ++ [c]).

(** A step that is not a call to a collaborator: nothing is logged. *)
Definition lift {A} (r : outcome A) : M A := fun log => (r, log).

Notation "x <- m ;; k" := (bind m (fun x => k))
  (at level 100, m at next level, right associativity).

(** Number of [generate_content] invocations in a log. *)
Fixpoint generate_calls (log : list call) : nat :=
  match log with
  | [] => O
  | call_generate_content _ _ :: log' => S (generate_calls log')
  | _ :: log' => generate_calls log'
  end.

(** [JSONResponse(content=c)]: the status code defaults to 200, and the
    body is encoded when the response is built, which raises on a lone
    surrogate. *)
Definition mkJSONResponse (c : json_object) : outcome JSONResponse :=
  if renders c then Ok {| status_code := 200; content := c |}
  else Raise (JSONResponse_error c).

(** ** The handlers *)

Section Handlers.

(** The module-level [model]. *)
Variable model : GenerativeModelHandle.

(** [read_root]: the dict the framework serialises with status 200. *)
Definition read_root : result :=
  Return {| status_code := 200;
            content :=
              [(Py.lit "message",
                JString (Py.lit "Welcome to the Gemini Image Captioning API! Visit /docs for more info."))] |}.

(** The body of the [try] statement of [caption_image]. *)
Definition caption_image_try (file : UploadFile) : M JSONResponse :=
  image_data <- perform call_read (read file) ;;
  image <- perform (call_Image_open image_data) (Image_open image_data) ;;
  let contents := [PartText IMAGE_CAPTIONING_PROMPT; PartImage image] in
  response <- perform (call_generate_content model contents)
                      (generate_content model contents) ;;
  response_text <- lift (text response) ;;
  let caption := Py.strip response_text in
  let caption :=
    if negb (Py.truthy caption)
    then Py.lit "No caption could be generated for this image."
    else caption in
  lift (mkJSONResponse
          [(Py.lit "filename", json_of_optional (filename file));
           (Py.lit "caption", JString caption)]).

(** The [except] clauses, met by an exception [e] of the [try] body.  The
    first clause evaluates [genai.APIError] before it can test [e]: where
    the module has no such attribute that evaluation raises
    [AttributeError], which no later clause of the same statement catches. *)
Definition caption_image_except (e : PyException) : result :=
  match genai_APIError with
  | no_such_attribute =>
      RaiseException
        (AttributeError
           (Py.lit "module 'google.generativeai' has no attribute 'APIError'"))
  | exception_class =>
      if exn_is_APIError e then
        RaiseHTTPException 500 (Py.lit "Gemini API Error: " ++ exn_str e)
      else
        RaiseHTTPException 500
          (Py.lit "An unexpected error occurred: " ++ exn_str e)
  end.

(** [caption_image]: the content-type check stands before the [try]. *)
Definition caption_image (file : UploadFile) (log : list call)
  : result * list call :=
  match content_type file with
  | None =>
      (RaiseException
         (AttributeError (Py.lit "'NoneType' object has no attribute 'startswith'")),
       log)
  | Some ct =>
      if negb (Py.startswith ct (Py.lit "image/")) then
        (RaiseHTTPException 400
           (Py.lit "Invalid file type. Please upload an image."), log)
      else
        match caption_image_try file log with
        | (Ok r, log') => (Return r, log')
        | (Raise e, log') => (caption_image_except e, log')
        end
  end.

End Handlers.

(** ** Start-up and serving *)

Inductive request : Type :=
| GET_root
| POST_caption_image (file : UploadFile).

Definition GOOGLE_API_KEY : Py.str := Py.lit "GOOGLE_API_KEY".

(** [os.getenv(name)]. *)
Definition getenv (environ : gmap (list N) (list N)) (name : Py.str)
  : option Py.str := environ !! name.

(** The module body above the handlers: what running it leaves in [model],
    or the exception that ends the import. *)
Definition startup (environ : gmap (list N) (list N))
  : outcome GenerativeModelHandle :=
  match load_dotenv environ with
  | Raise e => Raise e
  | Ok environ =>
      let key_not_found :=
        Raise (ValueError (Py.lit
          "GOOGLE_API_KEY not found in environment variables. Please set it in a .env file.")) in
      match getenv environ GOOGLE_API_KEY with
      | None => key_not_found
      | Some GEMINI_API_KEY =>
          if negb (Py.truthy GEMINI_API_KEY) then key_not_found
          else
            match genai_configure GEMINI_API_KEY with
            | Raise e => Raise e
            | Ok _ =>
                match GenerativeModel MODEL_NAME with
                | Ok m => Ok m
                | Raise e =>
                    Raise (RuntimeError
                      (Py.lit "Failed to initialize Gemini model. Make sure 'gemini-2.5-flash-preview-04-17' is available and your API key is correct. Error: "
                       ++ exn_str e))
                end
            end
      end
  end.

Definition dispatch (model : GenerativeModelHandle) (r : request)
  (log : list call) : result * list call :=
  match r with
  | GET_root => (read_root, log)
  | POST_caption_image file => caption_image model file log
  end.

(** Requests served one after the other by an initialised application. *)
Fixpoint serve (model : GenerativeModelHandle) (rs : list request)
  (log : list call) : list result * list call :=
  match rs with
  | [] => ([], log)
  | r :: rs' =>
      let '(res, log') := dispatch model r log in
      let '(ress, log'') := serve model rs' log' in
      (res :: ress, log'')
  end.

(** The process: the module is imported, and only then are requests
    served. *)
Definition run (environ : gmap (list N) (list N)) (rs : list request)
  : outcome (list result * list call) :=
  match startup environ with
  | Raise e => Raise e
  | Ok m => Ok (serve m rs [])
  end.

End Service.

Arguments PartText {Image} s.
Arguments PartImage {Image} img.
Arguments call_read {Image GenerativeModelHandle}.
Arguments call_Image_open {Image GenerativeModelHandle} data.
Arguments call_generate_content {Image GenerativeModelHandle} m contents.
Arguments generate_calls {Image GenerativeModelHandle} log.
Arguments caption_image_try {Image GenerativeModelHandle} Image_open JSONResponse_error generate_content model file _.
Arguments caption_image {Image GenerativeModelHandle} Image_open genai_APIError JSONResponse_error generate_content model file log.
Arguments startup {GenerativeModelHandle} load_dotenv genai_configure GenerativeModel environ.
Arguments dispatch {Image GenerativeModelHandle} Image_open genai_APIError JSONResponse_error generate_content model r log.
Arguments serve {Image GenerativeModelHandle} Image_open genai_APIError JSONResponse_error generate_content model rs log.
Arguments run {Image GenerativeModelHandle} Image_open load_dotenv genai_configure GenerativeModel genai_APIError JSONResponse_error generate_content environ rs.

(** Two decoders agree on what they decode: on the same bytes both return
    the same image or both raise; the exceptions raised may differ (the
    imaging library puts the address of the stream in its message). *)
Definition same_decoding {Image : Type}
    (open1 open2 : list Byte.byte -> outcome Image) : Prop :=
  forall data,
    match open1 data, open2 data with
    | Ok img1, Ok img2 => img1 = img2
    | Raise _, Raise _ => True
    | _, _ => False
    end.

(** ** Test doubles

    Stand-ins for the collaborators, and a few uploads, on which the
    handlers can be run. *)

Module Double.

Definition unidentified_image (address : Py.str) : PyException :=
  {| exn_type := Py.lit "UnidentifiedImageError";
     exn_is_APIError := false;
     exn_str := Py.lit "cannot identify image file <_io.BytesIO object at "
                ++ address ++ Py.lit ">" |}.

(** The imaging library, with the stream at a given address: any non-empty
    body decodes (to itself), an empty one is refused. *)
Definition Image_open_at (address : Py.str) (data : list Byte.byte)
  : outcome (list Byte.byte) :=
  match data with
  | [] => Raise (unidentified_image address)
  | _ :: _ => Ok data
  end.

Definition Image_open : list Byte.byte -> outcome (list Byte.byte) :=
  Image_open_at (Py.lit "0x7f3a5c1b2e50").

Definition load_dotenv (environ : gmap (list N) (list N))
  : outcome (gmap (list N) (list N)) := Ok environ.

Definition dotenv_not_utf8 : PyException :=
  {| exn_type := Py.lit "UnicodeDecodeError";
     exn_is_APIError := false;
     exn_str := Py.lit "'utf-8' codec can't decode byte 0xff in position 0: invalid start byte" |}.

(** A [.env] file that cannot be decoded. *)
Definition failing_load_dotenv (environ : gmap (list N) (list N))
  : outcome (gmap (list N) (list N)) := Raise dotenv_not_utf8.

Definition genai_configure (key : Py.str) : outcome unit := Ok tt.

Definition GenerativeModel (name : Py.str) : outcome unit := Ok tt.

Definition JSONResponse_error (c : json_object) : PyException :=
  {| exn_type := Py.lit "UnicodeEncodeError";
     exn_is_APIError := false;
     exn_str := Py.lit "'utf-8' codec can't encode character: surrogates not allowed" |}.

(** A model that answers every request with the same text. *)
Definition answering (t : Py.str) (m : unit)
  (contents : list (@Part (list Byte.byte))) : outcome GenerateContentResponse :=
  Ok {| text := Ok t |}.

Definition quota_exceeded : PyException :=
  {| exn_type := Py.lit "ResourceExhausted";
     exn_is_APIError := true;
     exn_str := Py.lit "429 quota exceeded" |}.

(** A model whose provider rejects every request. *)
Definition rejecting (m : unit)
  (contents : list (@Part (list Byte.byte))) : outcome GenerateContentResponse :=
  Raise quota_exceeded.

Definition blocked_response : PyException :=
  {| exn_type := Py.lit "ValueError";
     exn_is_APIError := false;
     exn_str := Py.lit "response has no text part" |}.

(** A model whose responses carry no text: reading [text] raises. *)
Definition blocking (m : unit)
  (contents : list (@Part (list Byte.byte))) : outcome GenerateContentResponse :=
  Ok {| text := Raise blocked_response |}.

(** A provider library that refuses the key. *)
Definition refusing_configure (key : Py.str) : outcome unit :=
  Raise {| exn_type := Py.lit "ValueError";
           exn_is_APIError := false;
           exn_str := Py.lit "invalid api key" |}.

Definition model_not_found : PyException :=
  {| exn_type := Py.lit "NotFound";
     exn_is_APIError := false;
     exn_str := Py.lit "404 model not found" |}.

(** A provider library in which the named model cannot be built. *)
Definition failing_GenerativeModel (name : Py.str) : outcome unit :=
  Raise model_not_found.

Definition png_bytes : list Byte.byte := [Byte.x89; Byte.x50; Byte.x4e; Byte.x47].

Definition png_upload : UploadFile :=
  {| filename := Some (Py.lit "test.png");
     content_type := Some (Py.lit "image/png");
     read := Ok png_bytes |}.

Definition empty_image_upload : UploadFile :=
  {| filename := Some (Py.lit "empty.png");
     content_type := Some (Py.lit "image/png");
     read := Ok [] |}.

Definition text_upload : UploadFile :=
  {| filename := Some (Py.lit "notes.txt");
     content_type := Some (Py.lit "text/plain");
     read := Ok [Byte.x68; Byte.x69] |}.

(** A file part sent without a Content-Type header. *)
Definition untyped_upload : UploadFile :=
  {| filename := Some (Py.lit "test.png");
     content_type := None;
     read := Ok png_bytes |}.

Definition read_failed : PyException :=
  {| exn_type := Py.lit "OSError";
     exn_is_APIError := false;
     exn_str := Py.lit "read of closed file" |}.

Definition unreadable_upload : UploadFile :=
  {| filename := Some (Py.lit "test.png");
     content_type := Some (Py.lit "image/png");
     read := Raise read_failed |}.

(** A file name that holds the lone surrogate U+D800. *)
Definition surrogate_name_upload : UploadFile :=
  {| filename := Some (55296%N :: Py.lit ".png");
     content_type := Some (Py.lit "image/png");
     read := Ok png_bytes |}.

(** The text "A" followed by the lone surrogate U+D800. *)
Definition surrogate_text : Py.str := [65%N; 55296%N].

End Double.

Ltac run_handler :=
  unfold caption_image, caption_image_try, bind, perform, lift, ret.

Example strip_example :
  Py.strip (Py.lit "  A small red square.
 ") = Py.lit "A small red square.".
Proof. reflexivity. Qed.

Example png_example :
  caption_image Double.Image_open no_such_attribute Double.JSONResponse_error
    (Double.answering (Py.lit "A small red square.")) tt Double.png_upload [] =
  (Return {| status_code := 200;
             content := [(Py.lit "filename", JString (Py.lit "test.png"));
                         (Py.lit "caption", JString (Py.lit "A small red square."))] |},
   [call_read;
    call_Image_open Double.png_bytes;
    call_generate_content tt
      [PartText IMAGE_CAPTIONING_PROMPT; PartImage Double.png_bytes]]).
Proof. reflexivity. Qed.

Example text_example :
  caption_image Double.Image_open no_such_attribute Double.JSONResponse_error
    (Double.answering (Py.lit "x")) tt Double.text_upload [] =
  (RaiseHTTPException 400 (Py.lit "Invalid file type. Please upload an image."), []).
Proof. reflexivity. Qed.

(** ** Facts about Python text *)

Lemma startswith_refl (s : Py.str) : Py.startswith s s = true.
Proof.
  induction s as [|c s IH]; simpl; [reflexivity|].
  rewrite N.eqb_refl. exact IH.
Qed.

Lemma startswith_app (p s : Py.str) : Py.startswith (p ++ s) p = true.
Proof.
  induction p as [|c p IH]; simpl.
  - destruct s; reflexivity.
  - rewrite N.eqb_refl. exact IH.
Qed.

Lemma startswith_nil (s : Py.str) : Py.startswith s [] = true.
Proof. destruct s; reflexivity. Qed.

Lemma contains_self (s : Py.str) : Py.contains s s = true.
Proof.
  destruct s as [|c s]; simpl; [reflexivity|].
  rewrite N.eqb_refl, startswith_refl. reflexivity.
Qed.

Lemma contains_app_r (p s : Py.str) : Py.contains (p ++ s) s = true.
Proof.
  induction p as [|c p IH].
  - apply contains_self.
  - change ((c :: p) ++ s) with (c :: (p ++ s)).
    cbn [Py.contains]. rewrite IH. apply orb_true_r.
Qed.

(** [lstrip] removes a run of white space and stops at the first character
    that is not white space. *)
Lemma lstrip_split (s : Py.str) :
  exists w, s = w ++ Py.lstrip s /\ forallb Py.isspace w = true.
Proof.
  induction s as [|c s [w [Hs Hw]]].
  - exists []. split; reflexivity.
  - simpl. destruct (Py.isspace c) eqn:Hc.
    + exists (c :: w). split.
      * simpl. f_equal. exact Hs.
      * simpl. rewrite Hc. exact Hw.
    + exists []. split; reflexivity.
Qed.

Lemma lstrip_head (s : Py.str) (c : N) (s' : Py.str) :
  Py.lstrip s = c :: s' -> Py.isspace c = false.
Proof.
  induction s as [|d s IH]; simpl; [discriminate|].
  destruct (Py.isspace d) eqn:Hd; [exact IH|].
  intros H. injection H as -> _. exact Hd.
Qed.

(** [strip] cuts white space, and only white space, from both ends. *)
Lemma strip_split (s : Py.str) :
  exists w1 w2,
    s = w1 ++ Py.strip s ++ w2 /\
    forallb Py.isspace w1 = true /\ forallb Py.isspace w2 = true.
Proof.
  destruct (lstrip_split s) as [w1 [H1 Hw1]].
  destruct (lstrip_split (rev (Py.lstrip s))) as [w2 [H2 Hw2]].
  exists w1, (rev w2). repeat split.
  - unfold Py.strip, Py.rstrip.
    rewrite <- rev_app_distr, <- H2, rev_involutive. exact H1.
  - exact Hw1.
  - rewrite forallb_forall in *. intros x Hx. apply Hw2.
    apply in_rev. exact Hx.
Qed.

Lemma lstrip_app_nonspace (s : Py.str) (c : N) :
  Py.isspace c = false -> Py.lstrip (s ++ [c]) = Py.lstrip s ++ [c].
Proof.
  intros Hc. induction s as [|d s IH]; simpl.
  - rewrite Hc. reflexivity.
  - destruct (Py.isspace d); [exact IH|reflexivity].
Qed.

(** What [strip] leaves neither starts nor ends with white space. *)
Lemma strip_first (s : Py.str) (c : N) (t : Py.str) :
  Py.strip s = c :: t -> Py.isspace c = false.
Proof.
  unfold Py.strip, Py.rstrip.
  destruct (Py.lstrip s) as [|d u] eqn:Hu; [discriminate|].
  pose proof (lstrip_head s d u Hu) as Hd.
  simpl rev. rewrite (lstrip_app_nonspace (rev u) d Hd).
  rewrite rev_app_distr. simpl. intros H. injection H as <- _. exact Hd.
Qed.

Lemma strip_last (s : Py.str) (t : Py.str) (c : N) :
  Py.strip s = t ++ [c] -> Py.isspace c = false.
Proof.
  unfold Py.strip, Py.rstrip. intros H.
  apply (f_equal (@rev N)) in H.
  rewrite rev_involutive, rev_app_distr in H. simpl in H.
  exact (lstrip_head _ _ _ H).
Qed.

Lemma startswith_prefix_iff (s p : Py.str) :
  Py.startswith s p = true <-> exists rest, s = p ++ rest.
Proof.
  split.
  - revert s. induction p as [|c p IH]; intros s H.
    + exists s. reflexivity.
    + destruct s as [|d s]; simpl in H; [discriminate|].
      destruct (N.eqb_spec d c) as [->|]; [|discriminate].
      destruct (IH s H) as [rest ->]. exists rest. reflexivity.
  - intros [rest ->]. apply startswith_app.
Qed.

Lemma lstrip_spaces_app (w s : Py.str) :
  forallb Py.isspace w = true -> Py.lstrip (w ++ s) = Py.lstrip s.
Proof.
  induction w as [|c w IH]; simpl; [reflexivity|].
  destruct (Py.isspace c); [exact IH|discriminate].
Qed.

Lemma lstrip_all_space (s : Py.str) :
  forallb Py.isspace s = true <-> Py.lstrip s = [].
Proof.
  induction s as [|c s IH]; simpl; [tauto|].
  destruct (Py.isspace c); simpl; [exact IH|].
  split; discriminate.
Qed.

Lemma lstrip_app_nonempty (s x : Py.str) :
  Py.lstrip s <> [] -> Py.lstrip (s ++ x) = Py.lstrip s ++ x.
Proof.
  induction s as [|c s IH]; simpl; [congruence|].
  destruct (Py.isspace c); [exact IH|reflexivity].
Qed.

Lemma forallb_isspace_rev (w : Py.str) :
  forallb Py.isspace w = true -> forallb Py.isspace (rev w) = true.
Proof.
  rewrite !forallb_forall. intros H x Hx. apply H, in_rev. exact Hx.
Qed.

Lemma rstrip_app_spaces (u w : Py.str) :
  forallb Py.isspace w = true -> Py.rstrip (u ++ w) = Py.rstrip u.
Proof.
  intros Hw. unfold Py.rstrip. rewrite rev_app_distr.
  rewrite (lstrip_spaces_app (rev w) (rev u) (forallb_isspace_rev w Hw)).
  reflexivity.
Qed.

(** White space around a text does not change what [strip] returns. *)
Lemma strip_surrounding (w1 t w2 : Py.str) :
  forallb Py.isspace w1 = true ->
  forallb Py.isspace w2 = true ->
  Py.strip (w1 ++ t ++ w2) = Py.strip t.
Proof.
  intros H1 H2. unfold Py.strip.
  rewrite (lstrip_spaces_app w1 (t ++ w2) H1).
  destruct (Py.lstrip t) as [|c u] eqn:Ht.
  - apply lstrip_all_space in Ht.
    assert (Hall : forallb Py.isspace (t ++ w2) = true).
    { rewrite forallb_app, Ht, H2. reflexivity. }
    apply lstrip_all_space in Hall. rewrite Hall. reflexivity.
  - rewrite (lstrip_app_nonempty t w2) by (rewrite Ht; discriminate).
    rewrite Ht. apply rstrip_app_spaces. exact H2.
Qed.

Lemma generate_calls_app {Image GenerativeModelHandle : Type}
    (l1 l2 : list (call Image GenerativeModelHandle)) :
  generate_calls (l1 ++ l2) = (generate_calls l1 + generate_calls l2)%nat.
Proof.
  induction l1 as [|c l1 IH]; simpl; [reflexivity|].
  destruct c; simpl; rewrite IH; reflexivity.
Qed.


(** ** Properties of the handlers *)

Section Properties.

Context {Image GenerativeModelHandle : Type}.
Variable Image_open : list Byte.byte -> outcome Image.
Variable genai_APIError : genai_attribute.
Variable JSONResponse_error : json_object -> PyException.
Variable generate_content :
  GenerativeModelHandle -> list (@Part Image) -> outcome GenerateContentResponse.
Variable model : GenerativeModelHandle.

Local Abbreviation handler :=
  (caption_image Image_open genai_APIError JSONResponse_error generate_content model).
Local Abbreviation try_body :=
  (caption_image_try Image_open JSONResponse_error generate_content model).
Local Abbreviation handled := (caption_image_except genai_APIError).
Local Abbreviation log_t := (list (call Image GenerativeModelHandle)).
Local Abbreviation image_type ct := (Py.startswith ct (Py.lit "image/")).
Local Abbreviation contents_of img :=
  [PartText IMAGE_CAPTIONING_PROMPT; PartImage img].
Local Abbreviation generate_of img := (generate_content model (contents_of img)).
Local Abbreviation calls_of data img :=
  [call_read; call_Image_open data; call_generate_content model (contents_of img)].
Local Abbreviation caption_of t :=
  (if negb (Py.truthy (Py.strip t))
   then Py.lit "No caption could be generated for this image."
   else Py.strip t).
Local Abbreviation body_of file t :=
  [(Py.lit "filename", json_of_optional (filename file));
   (Py.lit "caption", JString (caption_of t))].

(** The [try] body, step by step. *)

Lemma try_read_raises (file : UploadFile) (log : log_t) (e : PyException) :
  read file = Raise e ->
  try_body file log = (Raise e, log ++ [call_read]).
Proof. intros H. run_handler. rewrite H. reflexivity. Qed.

Lemma try_decode_raises (file : UploadFile) (log : log_t) data (e : PyException) :
  read file = Ok data ->
  Image_open data = Raise e ->
  try_body file log = (Raise e, log ++ [call_read; call_Image_open data]).
Proof.
  intros H1 H2. run_handler. rewrite H1, H2, <- app_assoc. reflexivity.
Qed.

Lemma try_generate_raises (file : UploadFile) (log : log_t) data img
    (e : PyException) :
  read file = Ok data ->
  Image_open data = Ok img ->
  generate_of img = Raise e ->
  try_body file log = (Raise e, log ++ calls_of data img).
Proof.
  intros H1 H2 H3. run_handler. rewrite H1, H2, H3, <- !app_assoc. reflexivity.
Qed.

Lemma try_text_raises (file : UploadFile) (log : log_t) data img resp
    (e : PyException) :
  read file = Ok data ->
  Image_open data = Ok img ->
  generate_of img = Ok resp ->
  text resp = Raise e ->
  try_body file log = (Raise e, log ++ calls_of data img).
Proof.
  intros H1 H2 H3 H4. run_handler.
  rewrite H1, H2, H3, H4, <- !app_assoc. reflexivity.
Qed.

Lemma try_builds_response (file : UploadFile) (log : log_t) data img resp
    (t : Py.str) :
  read file = Ok data ->
  Image_open data = Ok img ->
  generate_of img = Ok resp ->
  text resp = Ok t ->
  try_body file log =
  (mkJSONResponse JSONResponse_error (body_of file t), log ++ calls_of data img).
Proof.
  intros H1 H2 H3 H4. run_handler.
  rewrite H1, H2, H3, H4, <- !app_assoc. reflexivity.
Qed.

(** The body built at the end of the [try] can be encoded exactly when the
    file name and the stripped text can. *)
Lemma renders_body (file : UploadFile) (t : Py.str) :
  renders (body_of file t) =
  json_encodable (json_of_optional (filename file)) && Py.encodable (Py.strip t).
Proof.
  unfold renders. cbn [forallb fst snd json_encodable].
  change (Py.encodable (Py.lit "filename")) with true.
  change (Py.encodable (Py.lit "caption")) with true.
  destruct (Py.strip t) as [|c u]; cbn [Py.truthy negb].
  - change (Py.encodable
              (Py.lit "No caption could be generated for this image."))
      with true.
    cbn [Py.encodable forallb andb]. rewrite andb_true_r. reflexivity.
  - cbn [andb]. rewrite andb_true_r. reflexivity.
Qed.

(** Neither [except] clause returns a response or a 400. *)
Lemma handled_not_return (e : PyException) (r : JSONResponse) :
  handled e <> Return r.
Proof.
  unfold caption_image_except.
  destruct genai_APIError; [destruct (exn_is_APIError e)|]; discriminate.
Qed.

Lemma handled_http (e : PyException) (status : Z) (detail : Py.str) :
  handled e = RaiseHTTPException status detail ->
  status = 500 /\ genai_APIError = exception_class /\
  detail = (if exn_is_APIError e
            then Py.lit "Gemini API Error: "
            else Py.lit "An unexpected error occurred: ") ++ exn_str e.
Proof.
  unfold caption_image_except.
  destruct genai_APIError; [|discriminate].
  destruct (exn_is_APIError e); intros H; injection H as <- <-;
    repeat split; reflexivity.
Qed.

(** An upload that passes the content-type check enters the [try]. *)
Lemma image_upload_enters_try (file : UploadFile) (ct : Py.str) (log : log_t) :
  content_type file = Some ct ->
  image_type ct = true ->
  handler file log =
  match try_body file log with
  | (Ok r, log') => (Return r, log')
  | (Raise e, log') => (handled e, log')
  end.
Proof.
  intros Hct Hs. unfold caption_image. rewrite Hct, Hs. reflexivity.
Qed.

Lemma raised_in_try (file : UploadFile) (ct : Py.str) (log log' : log_t)
    (e : PyException) :
  content_type file = Some ct ->
  image_type ct = true ->
  try_body file log = (Raise e, log') ->
  handler file log = (handled e, log').
Proof.
  intros Hct Hs Ht.
  rewrite (image_upload_enters_try file ct log Hct Hs), Ht. reflexivity.
Qed.

(** The eight ways a request can go, each with its outcome and the calls
    it adds to the log. *)
Lemma handler_paths (file : UploadFile) (log : log_t) :
  (content_type file = None /\
   handler file log =
     (RaiseException
        (AttributeError (Py.lit "'NoneType' object has no attribute 'startswith'")),
      log)) \/
  (exists ct,
     content_type file = Some ct /\ image_type ct = false /\
     handler file log =
       (RaiseHTTPException 400
          (Py.lit "Invalid file type. Please upload an image."), log)) \/
  (exists ct e,
     content_type file = Some ct /\ image_type ct = true /\
     read file = Raise e /\
     try_body file log = (Raise e, log ++ [call_read]) /\
     handler file log = (handled e, log ++ [call_read])) \/
  (exists ct data e,
     content_type file = Some ct /\ image_type ct = true /\
     read file = Ok data /\ Image_open data = Raise e /\
     try_body file log = (Raise e, log ++ [call_read; call_Image_open data]) /\
     handler file log = (handled e, log ++ [call_read; call_Image_open data])) \/
  (exists ct data img e,
     content_type file = Some ct /\ image_type ct = true /\
     read file = Ok data /\ Image_open data = Ok img /\
     generate_of img = Raise e /\
     try_body file log = (Raise e, log ++ calls_of data img) /\
     handler file log = (handled e, log ++ calls_of data img)) \/
  (exists ct data img resp e,
     content_type file = Some ct /\ image_type ct = true /\
     read file = Ok data /\ Image_open data = Ok img /\
     generate_of img = Ok resp /\ text resp = Raise e /\
     try_body file log = (Raise e, log ++ calls_of data img) /\
     handler file log = (handled e, log ++ calls_of data img)) \/
  (exists ct data img resp t,
     content_type file = Some ct /\ image_type ct = true /\
     read file = Ok data /\ Image_open data = Ok img /\
     generate_of img = Ok resp /\ text resp = Ok t /\
     renders (body_of file t) = false /\
     try_body file log =
       (Raise (JSONResponse_error (body_of file t)), log ++ calls_of data img) /\
     handler file log =
       (handled (JSONResponse_error (body_of file t)), log ++ calls_of data img)) \/
  (exists ct data img resp t,
     content_type file = Some ct /\ image_type ct = true /\
     read file = Ok data /\ Image_open data = Ok img /\
     generate_of img = Ok resp /\ text resp = Ok t /\
     renders (body_of file t) = true /\
     handler file log =
       (Return {| status_code := 200; content := body_of file t |},
        log ++ calls_of data img)).
Proof.
  destruct (content_type file) as [ct|] eqn:Hct.
  2:{ left. split; [reflexivity|]. unfold caption_image. rewrite Hct. reflexivity. }
  right. destruct (image_type ct) eqn:Hs.
  2:{ left. exists ct. repeat split; try assumption.
      unfold caption_image. rewrite Hct, Hs. reflexivity. }
  right. destruct (read file) as [data|e] eqn:Hr.
  2:{ left. exists ct, e.
      pose proof (try_read_raises file log e Hr) as Ht.
      repeat split; try assumption.
      exact (raised_in_try file ct log _ e Hct Hs Ht). }
  right. destruct (Image_open data) as [img|e] eqn:Hd.
  2:{ left. exists ct, data, e.
      pose proof (try_decode_raises file log data e Hr Hd) as Ht.
      repeat split; try assumption.
      exact (raised_in_try file ct log _ e Hct Hs Ht). }
  right. destruct (generate_of img) as [resp|e] eqn:Hg.
  2:{ left. exists ct, data, img, e.
      pose proof (try_generate_raises file log data img e Hr Hd Hg) as Ht.
      repeat split; try assumption.
      exact (raised_in_try file ct log _ e Hct Hs Ht). }
  right. destruct (text resp) as [t|e] eqn:Htx.
  2:{ left. exists ct, data, img, resp, e.
      pose proof (try_text_raises file log data img resp e Hr Hd Hg Htx) as Ht.
      repeat split; try assumption.
      exact (raised_in_try file ct log _ e Hct Hs Ht). }
  right.
  pose proof (try_builds_response file log data img resp t Hr Hd Hg Htx) as Ht.
  unfold mkJSONResponse in Ht.
  destruct (renders (body_of file t)) eqn:Hrend.
  - right. exists ct, data, img, resp, t. repeat split; try assumption.
    rewrite (image_upload_enters_try file ct log Hct Hs), Ht. reflexivity.
  - left. exists ct, data, img, resp, t. repeat split; try assumption.
    exact (raised_in_try file ct log _ _ Hct Hs Ht).
Qed.

(** Where the module has no [APIError], an exception of the [try] body
    never becomes an [HTTPException]: the [AttributeError] of the first
    [except] clause leaves the handler. *)
Lemma exception_in_try_escapes (file : UploadFile) (ct : Py.str)
    (log log' : log_t) (e : PyException) :
  genai_APIError = no_such_attribute ->
  content_type file = Some ct ->
  image_type ct = true ->
  try_body file log = (Raise e, log') ->
  handler file log =
    (RaiseException
       (AttributeError
          (Py.lit "module 'google.generativeai' has no attribute 'APIError'")),
     log').
Proof.
  intros Hno Hct Hs Ht.
  rewrite (raised_in_try file ct log log' e Hct Hs Ht).
  unfold caption_image_except. rewrite Hno. reflexivity.
Qed.

(** One request adds at most one [generate_content] call. *)
Lemma handler_generate_calls (file : UploadFile) (log : log_t) :
  generate_calls (snd (handler file log)) = generate_calls log \/
  generate_calls (snd (handler file log)) = S (generate_calls log).
Proof.
  decompose [ex and or] (handler_paths file log);
    match goal with H : handler file log = _ |- _ => rewrite H end;
    cbn [snd]; rewrite ?generate_calls_app; simpl;
    first [left; lia | right; lia].
Qed.

(** C1. An upload whose declared content type does not start with
    [image/] is answered with [HTTPException] 400 and the message
    "Invalid file type. Please upload an image."; the handler makes no call
    at all, so a fresh call log records zero invocations of
    [generate_content]. *)
Theorem non_image_upload_rejected
    (file : UploadFile) (ct : Py.str) (log : log_t) :
  content_type file = Some ct ->
  Py.startswith ct (Py.lit "image/") = false ->
  handler file log =
    (RaiseHTTPException 400
       (Py.lit "Invalid file type. Please upload an image."), log) /\
  generate_calls (snd (handler file [])) = 0%nat.
Proof.
  intros Hct Hs. unfold caption_image. rewrite Hct, Hs. simpl.
  split; reflexivity.
Qed.

(** C2, amended.  For an upload with an image content type, when
    [generate_content] succeeds and its text, stripped, is a non-empty text
    [T], and neither the file name nor [T] holds a lone surrogate, the
    handler returns status 200 with [filename] the upload's file name and
    [caption] equal to [T]. *)
Theorem caption_is_stripped_text
    (file : UploadFile) (ct : Py.str) (log : log_t) data img resp (t : Py.str) :
  content_type file = Some ct ->
  Py.startswith ct (Py.lit "image/") = true ->
  read file = Ok data ->
  Image_open data = Ok img ->
  generate_content model [PartText IMAGE_CAPTIONING_PROMPT; PartImage img] = Ok resp ->
  text resp = Ok t ->
  Py.strip t <> [] ->
  json_encodable (json_of_optional (filename file)) = true ->
  Py.encodable (Py.strip t) = true ->
  fst (handler file log) =
    Return {| status_code := 200;
              content := [(Py.lit "filename", json_of_optional (filename file));
                          (Py.lit "caption", JString (Py.strip t))] |}.
Proof.
  intros Hct Hs Hr Hd Hg Ht Hne Hfile Htext.
  rewrite (image_upload_enters_try file ct log Hct Hs).
  rewrite (try_builds_response file log data img resp t Hr Hd Hg Ht).
  unfold mkJSONResponse. rewrite renders_body, Hfile, Htext.
  destruct (Py.strip t) as [|c T]; [congruence|]. reflexivity.
Qed.

(** C3, amended.  For an upload with an image content type whose file
    name holds no lone surrogate, when [generate_content] succeeds but its
    text is empty once stripped, the handler returns status 200 with the
    caption "No caption could be generated for this image.". *)
Theorem blank_text_gives_fallback_caption
    (file : UploadFile) (ct : Py.str) (log : log_t) data img resp (t : Py.str) :
  content_type file = Some ct ->
  Py.startswith ct (Py.lit "image/") = true ->
  read file = Ok data ->
  Image_open data = Ok img ->
  generate_content model [PartText IMAGE_CAPTIONING_PROMPT; PartImage img] = Ok resp ->
  text resp = Ok t ->
  Py.strip t = [] ->
  json_encodable (json_of_optional (filename file)) = true ->
  fst (handler file log) =
    Return {| status_code := 200;
              content := [(Py.lit "filename", json_of_optional (filename file));
                          (Py.lit "caption",
                           JString (Py.lit "No caption could be generated for this image."))] |}.
Proof.
  intros Hct Hs Hr Hd Hg Ht He Hfile.
  rewrite (image_upload_enters_try file ct log Hct Hs).
  rewrite (try_builds_response file log data img resp t Hr Hd Hg Ht).
  unfold mkJSONResponse. rewrite renders_body, Hfile, He. reflexivity.
Qed.

(** C8. Whatever the upload (bytes, file name, content type), every call
    of [generate_content] that the handler makes is on the module's model
    and passes the fixed text [IMAGE_CAPTIONING_PROMPT] first, followed by
    the decoded upload. *)
Theorem generate_content_receives_fixed_prompt
    (file : UploadFile) (m : GenerativeModelHandle) (contents : list (@Part Image)) :
  In (call_generate_content m contents) (snd (handler file [])) ->
  m = model /\
  exists data img,
    read file = Ok data /\ Image_open data = Ok img /\
    contents = [PartText IMAGE_CAPTIONING_PROMPT; PartImage img].
Proof.
  intros Hin.
  decompose [ex and or] (handler_paths file []);
    match goal with H : handler file [] = _ |- _ => rewrite H in Hin end;
    cbn [snd app] in Hin; simpl in Hin;
    repeat match goal with
           | H : _ \/ _ |- _ => destruct H as [H|H]
           | H : False |- _ => contradiction
           | H : call_read = call_generate_content _ _ |- _ => discriminate H
           | H : call_Image_open _ = call_generate_content _ _ |- _ =>
               discriminate H
           end;
    match goal with
    | H : call_generate_content _ _ = call_generate_content _ _ |- _ =>
        injection H as <- <-
    end;
    (split; [reflexivity|]); eauto.
Qed.

(** C9. An upload without a declared content type never gets the 400
    answer: the content-type test itself raises [AttributeError], before
    the [try], and that exception leaves the handler.  So a 400 answer
    means the upload declared a content type, one that does not start with
    [image/]. *)
Theorem missing_content_type_not_rejected_with_400
    (file : UploadFile) (log : log_t) :
  (content_type file = None ->
   handler file log =
     (RaiseException
        (AttributeError (Py.lit "'NoneType' object has no attribute 'startswith'")),
      log)) /\
  (forall detail,
     fst (handler file log) = RaiseHTTPException 400 detail ->
     exists ct, content_type file = Some ct /\
                Py.startswith ct (Py.lit "image/") = false).
Proof.
  split.
  - intros H. unfold caption_image. rewrite H. reflexivity.
  - intros detail Hraise.
    decompose [ex and or] (handler_paths file log);
      match goal with H : handler file log = _ |- _ => rewrite H in Hraise end;
      cbn [fst] in Hraise; try discriminate Hraise; eauto;
      apply handled_http in Hraise; destruct Hraise as [H400 _];
      discriminate H400.
Qed.

(** With a declared content type the handler ends in one of four ways; the
    last is the only one an exception of the [try] body leads to where the
    module has no [APIError]. *)
Lemma declared_content_type_outcomes
    (file : UploadFile) (ct : Py.str) (log : log_t) :
  content_type file = Some ct ->
  (exists r, fst (handler file log) = Return r /\ status_code r = 200) \/
  (exists detail, fst (handler file log) = RaiseHTTPException 400 detail) \/
  (genai_APIError = exception_class /\
   exists detail, fst (handler file log) = RaiseHTTPException 500 detail) \/
  (genai_APIError = no_such_attribute /\
   fst (handler file log) =
     RaiseException
       (AttributeError
          (Py.lit "module 'google.generativeai' has no attribute 'APIError'"))).
Proof.
  intros Hct.
  decompose [ex and or] (handler_paths file log);
    try congruence;
    match goal with H : handler file log = _ |- _ => rewrite H end;
    cbn [fst]; eauto;
    right; right; unfold caption_image_except;
    (destruct genai_APIError;
     [left; split; [reflexivity|];
      match goal with |- context [exn_is_APIError ?e] =>
        destruct (exn_is_APIError e) end; eauto
     |right; split; reflexivity]).
Qed.

(** X1. A response is returned only at the end of the [try]: it has status
    200, its body holds the upload's file name and a caption, and the
    caption is never empty and neither starts nor ends with white space. *)
Theorem returned_caption_is_trimmed
    (file : UploadFile) (log : log_t) (r : JSONResponse) :
  fst (handler file log) = Return r ->
  status_code r = 200 /\
  exists caption,
    content r = [(Py.lit "filename", json_of_optional (filename file));
                 (Py.lit "caption", JString caption)] /\
    caption <> [] /\
    (forall c rest, caption = c :: rest -> Py.isspace c = false) /\
    (forall rest c, caption = rest ++ [c] -> Py.isspace c = false).
Proof.
  intros Hret.
  decompose [ex and or] (handler_paths file log);
    match goal with H : handler file log = _ |- _ => rewrite H in Hret end;
    cbn [fst] in Hret; try discriminate Hret;
    try (exfalso; exact (handled_not_return _ _ Hret)).
  injection Hret as <-. split; [reflexivity|].
  match goal with |- context [Py.strip ?t] => rename t into t0 end.
  assert (Hx : exists u c rest,
             caption_of t0 = Py.strip u /\ Py.strip u = c :: rest).
  { destruct (Py.strip t0) as [|c rest] eqn:Hst.
    - exists (Py.lit "No caption could be generated for this image.").
      eexists. eexists. split; reflexivity.
    - exists t0, c, rest. rewrite Hst. split; reflexivity. }
  destruct Hx as [u [c [rest [Hcap Hne]]]].
  eexists. split; [reflexivity|]. rewrite Hcap. repeat split.
  - rewrite Hne. discriminate.
  - intros c' rest' Hc'. exact (strip_first u c' rest' Hc').
  - intros rest' c' Hc'. exact (strip_last u rest' c' Hc').
Qed.

(** X2. White space around the text the model returns does not show in the
    answer: two models whose texts differ only by surrounding white space
    give the same response. *)
Theorem caption_ignores_surrounding_whitespace
    (generate_content' :
       GenerativeModelHandle -> list (@Part Image) -> outcome GenerateContentResponse)
    (file : UploadFile) (ct : Py.str) (log : log_t) data img resp resp'
    (t w1 w2 : Py.str) :
  content_type file = Some ct ->
  image_type ct = true ->
  read file = Ok data ->
  Image_open data = Ok img ->
  generate_of img = Ok resp ->
  generate_content' model (contents_of img) = Ok resp' ->
  text resp = Ok t ->
  text resp' = Ok (w1 ++ t ++ w2) ->
  forallb Py.isspace w1 = true ->
  forallb Py.isspace w2 = true ->
  fst (caption_image Image_open genai_APIError JSONResponse_error
         generate_content' model file log) =
  fst (handler file log).
Proof.
  intros Hct Hs Hr Hd Hg Hg' Ht Ht' H1 H2.
  unfold caption_image. rewrite Hct, Hs. cbn [negb].
  run_handler. rewrite Hr, Hd, Hg, Hg', Ht, Ht'.
  rewrite (strip_surrounding w1 t w2 H1 H2).
  destruct (mkJSONResponse JSONResponse_error _); reflexivity.
Qed.

(** X3. One request calls [generate_content] once or not at all, and once
    exactly when the upload declares an [image/] content type, can be read,
    and decodes: nothing is retried, and nothing is sent to the model
    before the upload has been decoded. *)
Theorem generate_content_called_once_iff_decoded
    (file : UploadFile) (log : log_t) :
  (generate_calls (snd (handler file log)) = generate_calls log \/
   generate_calls (snd (handler file log)) = S (generate_calls log)) /\
  (generate_calls (snd (handler file log)) = S (generate_calls log) <->
   exists ct data img,
     content_type file = Some ct /\ image_type ct = true /\
     read file = Ok data /\ Image_open data = Ok img).
Proof.
  split; [apply handler_generate_calls|].
  decompose [ex and or] (handler_paths file log);
    match goal with H : handler file log = _ |- _ => rewrite H end;
    cbn [snd]; rewrite ?generate_calls_app; simpl; split;
    try (intros; lia);
    try (intros [ct' [data' [img' [? [? [? ?]]]]]]; congruence);
    try (intros _; eauto 10).
Qed.

(** X4. The handler returns a response exactly when every step succeeds:
    the content type starts with [image/], the upload is read and decoded,
    [generate_content] returns, the response's [text] can be read, and the
    body can be encoded, that is, neither the file name nor the stripped
    text holds a lone surrogate. *)
Theorem returns_iff_every_step_succeeds (file : UploadFile) (log : log_t) :
  (exists r, fst (handler file log) = Return r) <->
  exists ct data img resp t,
    content_type file = Some ct /\ image_type ct = true /\
    read file = Ok data /\ Image_open data = Ok img /\
    generate_of img = Ok resp /\ text resp = Ok t /\
    json_encodable (json_of_optional (filename file)) = true /\
    Py.encodable (Py.strip t) = true.
Proof.
  split.
  - intros [r Hret].
    decompose [ex and or] (handler_paths file log);
      match goal with H : handler file log = _ |- _ => rewrite H in Hret end;
      cbn [fst] in Hret; try discriminate Hret;
      try (exfalso; exact (handled_not_return _ _ Hret)).
    match goal with H : renders _ = true |- _ =>
      rewrite renders_body in H; apply andb_true_iff in H; destruct H end.
    eauto 14.
  - intros [ct [data [img [resp [t [Hct [Hs [Hr [Hd [Hg [Ht [Hf Hc]]]]]]]]]]]].
    rewrite (image_upload_enters_try file ct log Hct Hs).
    rewrite (try_builds_response file log data img resp t Hr Hd Hg Ht).
    unfold mkJSONResponse. rewrite renders_body, Hf, Hc.
    eexists. reflexivity.
Qed.

(** X5. When reading the upload raises [e], only the read has been
    called, neither [Image.open] nor [generate_content], and [e] meets the
    [except] clauses: where the module has no [APIError], the
    [AttributeError] of the first clause leaves the handler; where a class
    stands under that name, the answer is status 500 with the text of [e]
    after the prefix its class selects. *)
Theorem unreadable_upload_outcome
    (file : UploadFile) (ct : Py.str) (log : log_t) (e : PyException) :
  content_type file = Some ct ->
  image_type ct = true ->
  read file = Raise e ->
  handler file log =
    (match genai_APIError with
     | no_such_attribute =>
         RaiseException
           (AttributeError
              (Py.lit "module 'google.generativeai' has no attribute 'APIError'"))
     | exception_class =>
         RaiseHTTPException 500
           ((if exn_is_APIError e
             then Py.lit "Gemini API Error: "
             else Py.lit "An unexpected error occurred: ") ++ exn_str e)
     end,
     log ++ [call_read]).
Proof.
  intros Hct Hs Hr.
  rewrite (raised_in_try file ct log _ e Hct Hs (try_read_raises file log e Hr)).
  unfold caption_image_except.
  destruct genai_APIError; [destruct (exn_is_APIError e)|]; reflexivity.
Qed.

(** X6. When [generate_content] returns a response whose [text] raises
    [e], the model has been called once and [e] meets the [except] clauses
    as any other exception of the [try] body does: [AttributeError] leaves
    the handler where the module has no [APIError], status 500 with the
    text of [e] where a class stands under that name. *)
Theorem unreadable_response_text_outcome
    (file : UploadFile) (ct : Py.str) (log : log_t) data img resp
    (e : PyException) :
  content_type file = Some ct ->
  image_type ct = true ->
  read file = Ok data ->
  Image_open data = Ok img ->
  generate_of img = Ok resp ->
  text resp = Raise e ->
  handler file log =
    (match genai_APIError with
     | no_such_attribute =>
         RaiseException
           (AttributeError
              (Py.lit "module 'google.generativeai' has no attribute 'APIError'"))
     | exception_class =>
         RaiseHTTPException 500
           ((if exn_is_APIError e
             then Py.lit "Gemini API Error: "
             else Py.lit "An unexpected error occurred: ") ++ exn_str e)
     end,
     log ++ [call_read; call_Image_open data;
             call_generate_content model
               [PartText IMAGE_CAPTIONING_PROMPT; PartImage img]]).
Proof.
  intros Hct Hs Hr Hd Hg Ht.
  rewrite (raised_in_try file ct log _ e Hct Hs
             (try_text_raises file log data img resp e Hr Hd Hg Ht)).
  unfold caption_image_except.
  destruct genai_APIError; [destruct (exn_is_APIError e)|]; reflexivity.
Qed.

(** X7. An [HTTPException] of the handler has status 400 or 500.  With 400
    the detail is the invalid-file-type message and no call has been made.
    With 500 a class stands under the name [genai.APIError], the [try] body
    has raised some [e], and the detail is the text of that [e] after the
    prefix its class selects; so where the module has no [APIError] the
    handler raises no [HTTPException] but the 400. *)
Theorem http_errors_are_400_or_500
    (file : UploadFile) (log : log_t) (status : Z) (detail : Py.str) :
  fst (handler file log) = RaiseHTTPException status detail ->
  (status = 400 /\
   detail = Py.lit "Invalid file type. Please upload an image." /\
   snd (handler file log) = log) \/
  (status = 500 /\
   genai_APIError = exception_class /\
   exists e log',
     try_body file log = (Raise e, log') /\
     detail = (if exn_is_APIError e
               then Py.lit "Gemini API Error: "
               else Py.lit "An unexpected error occurred: ") ++ exn_str e).
Proof.
  intros Hraise.
  decompose [ex and or] (handler_paths file log);
    match goal with H : handler file log = _ |- _ =>
      rewrite H in Hraise; rewrite H end;
    cbn [fst snd] in *; try discriminate Hraise;
    try (injection Hraise as <- <-; left; repeat split; reflexivity);
    right; apply handled_http in Hraise;
    destruct Hraise as [-> [Hclass ->]];
    (split; [reflexivity|]); (split; [exact Hclass|]); eauto.
Qed.

(** X8. The upload's body is read exactly when the declared content type
    is the text [image/] followed by anything, the empty text included; the
    test is on the exact characters, lower case. *)
Theorem upload_read_iff_image_prefix (file : UploadFile) :
  In call_read (snd (handler file [])) <->
  exists rest, content_type file = Some (Py.lit "image/" ++ rest).
Proof.
  split.
  - intros Hin.
    decompose [ex and or] (handler_paths file []);
      match goal with H : handler file [] = _ |- _ => rewrite H in Hin end;
      cbn [snd] in Hin; try contradiction;
      match goal with
      | Hs : image_type ?ct = true, Hc : content_type file = Some ?ct |- _ =>
          apply startswith_prefix_iff in Hs; destruct Hs as [rest ->];
          exists rest; exact Hc
      end.
  - intros [rest Hct].
    assert (Hs : image_type (Py.lit "image/" ++ rest) = true)
      by apply startswith_app.
    decompose [ex and or] (handler_paths file []);
      match goal with H : handler file [] = _ |- _ => rewrite H end;
      cbn [snd]; try congruence; try (left; reflexivity).
Qed.

(** Serving a list of requests gives one result per request and makes
    at most one [generate_content] call per request. *)
Lemma serve_one_result_and_at_most_one_call_each
    (rs : list request) (log : log_t) :
  length (fst (serve Image_open genai_APIError JSONResponse_error
                 generate_content model rs log)) = length rs /\
  (generate_calls log <=
   generate_calls (snd (serve Image_open genai_APIError JSONResponse_error
                          generate_content model rs log)))%nat /\
  (generate_calls (snd (serve Image_open genai_APIError JSONResponse_error
                          generate_content model rs log)) <=
   generate_calls log + length rs)%nat.
Proof.
  revert log. induction rs as [|r rs IH]; intros log.
  - simpl. repeat split; lia.
  - cbn [serve].
    destruct (dispatch Image_open genai_APIError JSONResponse_error
                generate_content model r log) as [res log'] eqn:Hd.
    specialize (IH log').
    destruct (serve Image_open genai_APIError JSONResponse_error
                generate_content model rs log') as [ress log''] eqn:Hserve.
    cbn [fst snd length] in *.
    assert (Hlog' : generate_calls log' = generate_calls log \/
                    generate_calls log' = S (generate_calls log)).
    { destruct r as [|file]; simpl in Hd.
      - injection Hd as _ <-. left. reflexivity.
      - pose proof (handler_generate_calls file log) as H.
        rewrite Hd in H. exact H. }
    destruct IH as [IH1 [IH2 IH3]]. repeat split; lia.
Qed.

End Properties.

(** C4, at an input where it fails.  The provider rejects the request for
    a well-formed upload.  The exception reaches the first [except] clause,
    whose class expression [genai.APIError] names nothing in the provider's
    module: evaluating it raises [AttributeError], which leaves the handler.
    No [HTTPException] is raised, so no status 500 with a detail naming the
    provider and carrying its message. *)
Theorem provider_error_escapes_handler
    (JSONResponse_error : json_object -> PyException) :
  let res := fst (caption_image Double.Image_open no_such_attribute
                    JSONResponse_error Double.rejecting tt
                    Double.png_upload []) in
  Double.rejecting tt
    [PartText IMAGE_CAPTIONING_PROMPT; PartImage Double.png_bytes]
    = Raise Double.quota_exceeded /\
  res = RaiseException
          (AttributeError
             (Py.lit "module 'google.generativeai' has no attribute 'APIError'")) /\
  (forall status detail, res <> RaiseHTTPException status detail).
Proof.
  cbv zeta. split; [reflexivity|]. split; [reflexivity|].
  intros status detail. vm_compute. discriminate.
Qed.

(** C5, at the input where it fails.  An upload whose file part declares
    no content type makes the handler end neither with a response nor with
    an [HTTPException]: the [AttributeError] of the content-type test leaves
    the handler, whatever the collaborators do. *)
Theorem untyped_upload_escapes_handler
    {Image GenerativeModelHandle : Type}
    (Image_open : list Byte.byte -> outcome Image)
    (genai_APIError : genai_attribute)
    (JSONResponse_error : json_object -> PyException)
    (generate_content :
       GenerativeModelHandle -> list (@Part Image) -> outcome GenerateContentResponse)
    (model : GenerativeModelHandle) :
  let res := fst (caption_image Image_open genai_APIError JSONResponse_error
                    generate_content model Double.untyped_upload []) in
  res = RaiseException
          (AttributeError (Py.lit "'NoneType' object has no attribute 'startswith'")) /\
  (forall r, res <> Return r) /\
  (forall status detail, res <> RaiseHTTPException status detail).
Proof.
  cbv zeta. unfold caption_image. cbn [content_type Double.untyped_upload fst].
  repeat split; intros; discriminate.
Qed.

(** C6, at an input where it fails.  The bytes of the upload cannot be
    decoded.  The exception of [Image.open] reaches the first [except]
    clause, and evaluating [genai.APIError] raises [AttributeError], which
    leaves the handler before the second clause is tried: no
    [HTTPException] 500 with "An unexpected error occurred: ..." is
    raised. *)
Theorem undecodable_image_escapes_handler
    (JSONResponse_error : json_object -> PyException)
    (generate_content :
       unit -> list (@Part (list Byte.byte)) -> outcome GenerateContentResponse) :
  let res := fst (caption_image Double.Image_open no_such_attribute
                    JSONResponse_error generate_content tt
                    Double.empty_image_upload []) in
  Double.Image_open [] =
    Raise (Double.unidentified_image (Py.lit "0x7f3a5c1b2e50")) /\
  res = RaiseException
          (AttributeError
             (Py.lit "module 'google.generativeai' has no attribute 'APIError'")) /\
  (forall status detail, res <> RaiseHTTPException status detail).
Proof.
  cbv zeta. split; [reflexivity|]. split; [reflexivity|].
  intros status detail. vm_compute. discriminate.
Qed.

(** C10. Two runs of the handler on the same upload end in the same way
    (same response, or same error) when the generate calls behave alike,
    although the runs may differ in what was logged before and in the
    exceptions that decoding and encoding raise (their texts change from
    run to run).  With the provider library as it is, no text of a caught
    exception reaches the outcome. *)
Theorem caption_image_deterministic
    {Image GenerativeModelHandle : Type}
    (Image_open1 Image_open2 : list Byte.byte -> outcome Image)
    (JSONResponse_error1 JSONResponse_error2 : json_object -> PyException)
    (generate1 generate2 :
       GenerativeModelHandle -> list (@Part Image) -> outcome GenerateContentResponse)
    (model : GenerativeModelHandle)
    (file : UploadFile) (log1 log2 : list (call Image GenerativeModelHandle)) :
  same_decoding Image_open1 Image_open2 ->
  (forall contents, generate1 model contents = generate2 model contents) ->
  fst (caption_image Image_open1 no_such_attribute JSONResponse_error1
         generate1 model file log1) =
  fst (caption_image Image_open2 no_such_attribute JSONResponse_error2
         generate2 model file log2).
Proof.
  intros Hdec Hsame. unfold caption_image.
  destruct (content_type file) as [ct|]; [|reflexivity].
  destruct (Py.startswith ct (Py.lit "image/")); cbn [negb]; [|reflexivity].
  run_handler.
  destruct (read file) as [data|e]; [|reflexivity].
  specialize (Hdec data).
  destruct (Image_open1 data) as [img1|e1], (Image_open2 data) as [img2|e2];
    try contradiction; [|reflexivity].
  subst img2. rewrite Hsame.
  destruct (generate2 model _) as [resp|e]; [|reflexivity].
  destruct (text resp) as [t|e]; [|reflexivity].
  unfold mkJSONResponse. destruct (renders _); reflexivity.
Qed.

(** Where a class stands under the name [genai.APIError] the same two
    runs can differ: the text of the decoding error, which carries the
    address of the stream, is sent to the client. *)
Lemma decode_error_text_reaches_client_with_class :
  same_decoding (Double.Image_open_at (Py.lit "0x7f3a5c1b2e50"))
                (Double.Image_open_at (Py.lit "0x7f3a5c1b4a90")) /\
  fst (caption_image (Double.Image_open_at (Py.lit "0x7f3a5c1b2e50"))
         exception_class Double.JSONResponse_error
         (Double.answering (Py.lit "A small red square.")) tt
         Double.empty_image_upload []) <>
  fst (caption_image (Double.Image_open_at (Py.lit "0x7f3a5c1b4a90"))
         exception_class Double.JSONResponse_error
         (Double.answering (Py.lit "A small red square.")) tt
         Double.empty_image_upload []).
Proof.
  split.
  - intros [|b data]; simpl; [exact I|reflexivity].
  - vm_compute. discriminate.
Qed.

(** ** The module body *)

Section Startup.

Context {Image GenerativeModelHandle : Type}.
Variable Image_open : list Byte.byte -> outcome Image.
Variable load_dotenv :
  gmap (list N) (list N) -> outcome (gmap (list N) (list N)).
Variable genai_configure : Py.str -> outcome unit.
Variable GenerativeModel : Py.str -> outcome GenerativeModelHandle.
Variable genai_APIError : genai_attribute.
Variable JSONResponse_error : json_object -> PyException.
Variable generate_content :
  GenerativeModelHandle -> list (@Part Image) -> outcome GenerateContentResponse.

Local Abbreviation startup' := (startup load_dotenv genai_configure GenerativeModel).
Local Abbreviation run' :=
  (run Image_open load_dotenv genai_configure GenerativeModel genai_APIError
       JSONResponse_error generate_content).
Local Abbreviation init_failed e :=
  (RuntimeError
     (Py.lit "Failed to initialize Gemini model. Make sure 'gemini-2.5-flash-preview-04-17' is available and your API key is correct. Error: "
      ++ exn_str e)).

(** C7. When, once [load_dotenv] has run, [GOOGLE_API_KEY] is absent from
    the environment or empty, the module body raises [ValueError] with the
    message naming the variable; the process ends there, for any list of
    requests, before a single one is dispatched. *)
Theorem missing_api_key_is_fatal_at_startup
    (environ environ' : gmap (list N) (list N)) (rs : list request) :
  load_dotenv environ = Ok environ' ->
  getenv environ' GOOGLE_API_KEY = None \/
  getenv environ' GOOGLE_API_KEY = Some [] ->
  let fatal :=
    ValueError (Py.lit
      "GOOGLE_API_KEY not found in environment variables. Please set it in a .env file.") in
  startup' environ = Raise fatal /\
  run' environ rs = Raise fatal.
Proof.
  intros Hload Hkey fatal.
  assert (Hs : startup' environ = Raise fatal).
  { unfold startup. rewrite Hload. destruct Hkey as [-> | ->]; reflexivity. }
  split; [exact Hs|]. unfold run. rewrite Hs. reflexivity.
Qed.

(** X9. When the key is present but the model handle cannot be built, the
    module body raises [RuntimeError] whose message ends with the text of
    the underlying error, and no request is served. *)
Theorem model_construction_failure_is_fatal
    (environ environ' : gmap (list N) (list N)) (key : Py.str)
    (e : PyException) (rs : list request) :
  load_dotenv environ = Ok environ' ->
  getenv environ' GOOGLE_API_KEY = Some key ->
  key <> [] ->
  genai_configure key = Ok tt ->
  GenerativeModel MODEL_NAME = Raise e ->
  startup' environ = Raise (init_failed e) /\
  run' environ rs = Raise (init_failed e) /\
  Py.contains (exn_str (init_failed e)) (exn_str e) = true.
Proof.
  intros Hload Hk Hne Hc Hm.
  assert (Hs : startup' environ = Raise (init_failed e)).
  { unfold startup. rewrite Hload, Hk.
    destruct key as [|c key]; [congruence|]. cbn [Py.truthy negb].
    rewrite Hc, Hm. reflexivity. }
  split; [exact Hs|]. split.
  - unfold run. rewrite Hs. reflexivity.
  - apply contains_app_r.
Qed.

(** X10. The module body completes, leaving [m] in [model], exactly when
    [load_dotenv] returns, the environment then holds a non-empty
    [GOOGLE_API_KEY], the provider library accepts it, and the model named
    [MODEL_NAME] is built as [m]. *)
Theorem startup_succeeds_iff
    (environ : gmap (list N) (list N)) (m : GenerativeModelHandle) :
  startup' environ = Ok m <->
  exists environ' key,
    load_dotenv environ = Ok environ' /\
    getenv environ' GOOGLE_API_KEY = Some key /\ key <> [] /\
    genai_configure key = Ok tt /\
    GenerativeModel MODEL_NAME = Ok m.
Proof.
  unfold startup. split.
  - destruct (load_dotenv environ) as [environ'|e]; [|discriminate].
    destruct (getenv environ' GOOGLE_API_KEY) as [key|] eqn:Hk; [|discriminate].
    destruct key as [|c key]; [discriminate|]. cbn [Py.truthy negb].
    destruct (genai_configure (c :: key)) as [[]|e] eqn:Hc; [|discriminate].
    destruct (GenerativeModel MODEL_NAME) as [m'|e] eqn:Hm; [|discriminate].
    intros H. injection H as ->. exists environ', (c :: key).
    repeat split; try assumption; try reflexivity. discriminate.
  - intros [environ' [key [Hl [Hk [Hne [Hc Hm]]]]]]. rewrite Hl, Hk.
    destruct key as [|c key]; [congruence|]. cbn [Py.truthy negb].
    rewrite Hc, Hm. reflexivity.
Qed.

(** X11. The module body, from [load_dotenv()] to the construction of the
    model, fails in four ways only: the exception of [load_dotenv], passed
    on as it is; [ValueError] for a missing or empty key; the exception of
    [genai.configure], passed on as it is; or [RuntimeError] wrapping the
    exception of the model's constructor. *)
Theorem startup_failure_cases
    (environ : gmap (list N) (list N)) (e : PyException) :
  startup' environ = Raise e ->
  load_dotenv environ = Raise e \/
  exists environ',
    load_dotenv environ = Ok environ' /\
    (((getenv environ' GOOGLE_API_KEY = None \/
       getenv environ' GOOGLE_API_KEY = Some []) /\
      e = ValueError (Py.lit
            "GOOGLE_API_KEY not found in environment variables. Please set it in a .env file.")) \/
     (exists key,
        getenv environ' GOOGLE_API_KEY = Some key /\ key <> [] /\
        genai_configure key = Raise e) \/
     (exists key e',
        getenv environ' GOOGLE_API_KEY = Some key /\ key <> [] /\
        genai_configure key = Ok tt /\
        GenerativeModel MODEL_NAME = Raise e' /\
        e = init_failed e')).
Proof.
  unfold startup.
  destruct (load_dotenv environ) as [environ'|e0].
  2:{ intros H. injection H as <-. left. reflexivity. }
  intros H. right. exists environ'. split; [reflexivity|]. revert H.
  destruct (getenv environ' GOOGLE_API_KEY) as [key|].
  2:{ intros H. injection H as <-. left. split; [left|]; reflexivity. }
  destruct key as [|c key].
  { intros H. injection H as <-. left. split; [right|]; reflexivity. }
  cbn [Py.truthy negb].
  destruct (genai_configure (c :: key)) as [[]|e0] eqn:Hc.
  2:{ intros H. injection H as <-. right; left. exists (c :: key).
      repeat split; try assumption. discriminate. }
  destruct (GenerativeModel MODEL_NAME) as [m|e'] eqn:Hm; [discriminate|].
  intros H. injection H as <-. right; right. exists (c :: key), e'.
  repeat split; try assumption. discriminate.
Qed.

End Startup.

(** ** The theorems at concrete inputs *)

Lemma non_image_upload_rejected_witness :
  caption_image Double.Image_open no_such_attribute Double.JSONResponse_error
    (Double.answering (Py.lit "A small red square.")) tt
    Double.text_upload [] =
    (RaiseHTTPException 400
       (Py.lit "Invalid file type. Please upload an image."), []) /\
  generate_calls
    (snd (caption_image Double.Image_open no_such_attribute
            Double.JSONResponse_error
            (Double.answering (Py.lit "A small red square.")) tt
            Double.text_upload [])) = 0%nat.
Proof.
  apply (non_image_upload_rejected Double.Image_open no_such_attribute
           Double.JSONResponse_error
           (Double.answering (Py.lit "A small red square.")) tt
           Double.text_upload (Py.lit "text/plain") []); reflexivity.
Defined.

Lemma caption_is_stripped_text_witness :
  fst (caption_image Double.Image_open no_such_attribute
         Double.JSONResponse_error
         (Double.answering (Py.lit "  A small red square.
")) tt Double.png_upload []) =
  Return {| status_code := 200;
            content := [(Py.lit "filename", JString (Py.lit "test.png"));
                        (Py.lit "caption", JString (Py.lit "A small red square."))] |}.
Proof.
  apply (caption_is_stripped_text Double.Image_open no_such_attribute
           Double.JSONResponse_error
           (Double.answering (Py.lit "  A small red square.
")) tt Double.png_upload (Py.lit "image/png") []
           Double.png_bytes Double.png_bytes
           {| text := Ok (Py.lit "  A small red square.
") |}
           (Py.lit "  A small red square.
")); try reflexivity.
  vm_compute. discriminate.
Defined.

(** C2 as first stated fails: the model answers "A" followed by a lone
    surrogate; every step of the claim succeeds and the stripped text is
    not empty, yet building the response raises and no response with that
    caption is returned. *)
Lemma caption_is_stripped_text_counterexample :
  content_type Double.png_upload = Some (Py.lit "image/png") /\
  Py.startswith (Py.lit "image/png") (Py.lit "image/") = true /\
  read Double.png_upload = Ok Double.png_bytes /\
  Double.Image_open Double.png_bytes = Ok Double.png_bytes /\
  Double.answering Double.surrogate_text tt
    [PartText IMAGE_CAPTIONING_PROMPT; PartImage Double.png_bytes]
    = Ok {| text := Ok Double.surrogate_text |} /\
  Py.strip Double.surrogate_text <> [] /\
  fst (caption_image Double.Image_open no_such_attribute
         Double.JSONResponse_error (Double.answering Double.surrogate_text) tt
         Double.png_upload []) <>
  Return {| status_code := 200;
            content := [(Py.lit "filename",
                         json_of_optional (filename Double.png_upload));
                        (Py.lit "caption",
                         JString (Py.strip Double.surrogate_text))] |}.
Proof.
  repeat split; try reflexivity; vm_compute; discriminate.
Qed.

Lemma blank_text_gives_fallback_caption_witness :
  fst (caption_image Double.Image_open no_such_attribute
         Double.JSONResponse_error (Double.answering (Py.lit "  
 ")) tt Double.png_upload []) =
  Return {| status_code := 200;
            content := [(Py.lit "filename", JString (Py.lit "test.png"));
                        (Py.lit "caption",
                         JString (Py.lit "No caption could be generated for this image."))] |}.
Proof.
  apply (blank_text_gives_fallback_caption Double.Image_open no_such_attribute
           Double.JSONResponse_error
           (Double.answering (Py.lit "  
 ")) tt Double.png_upload (Py.lit "image/png") []
           Double.png_bytes Double.png_bytes
           {| text := Ok (Py.lit "  
 ") |}
           (Py.lit "  
 ")); reflexivity.
Defined.

(** C3 as first stated fails: the file name holds a lone surrogate; the
    model's text is blank, every step of the claim succeeds, yet building
    the response raises and no response with the fallback caption is
    returned. *)
Lemma blank_text_gives_fallback_caption_counterexample :
  content_type Double.surrogate_name_upload = Some (Py.lit "image/png") /\
  Py.startswith (Py.lit "image/png") (Py.lit "image/") = true /\
  read Double.surrogate_name_upload = Ok Double.png_bytes /\
  Double.Image_open Double.png_bytes = Ok Double.png_bytes /\
  Double.answering (Py.lit "  ") tt
    [PartText IMAGE_CAPTIONING_PROMPT; PartImage Double.png_bytes]
    = Ok {| text := Ok (Py.lit "  ") |} /\
  Py.strip (Py.lit "  ") = [] /\
  fst (caption_image Double.Image_open no_such_attribute
         Double.JSONResponse_error (Double.answering (Py.lit "  ")) tt
         Double.surrogate_name_upload []) <>
  Return {| status_code := 200;
            content := [(Py.lit "filename",
                         json_of_optional (filename Double.surrogate_name_upload));
                        (Py.lit "caption",
                         JString (Py.lit "No caption could be generated for this image."))] |}.
Proof.
  repeat split; try reflexivity; vm_compute; discriminate.
Qed.

Lemma missing_api_key_is_fatal_at_startup_witness :
  startup Double.load_dotenv Double.genai_configure Double.GenerativeModel ∅ =
    Raise (ValueError (Py.lit
      "GOOGLE_API_KEY not found in environment variables. Please set it in a .env file.")) /\
  run Double.Image_open Double.load_dotenv Double.genai_configure
      Double.GenerativeModel no_such_attribute Double.JSONResponse_error
      (Double.answering (Py.lit "A small red square."))
      ∅ [POST_caption_image Double.png_upload; GET_root] =
    Raise (ValueError (Py.lit
      "GOOGLE_API_KEY not found in environment variables. Please set it in a .env file.")).
Proof.
  apply (missing_api_key_is_fatal_at_startup Double.Image_open Double.load_dotenv
           Double.genai_configure Double.GenerativeModel no_such_attribute
           Double.JSONResponse_error
           (Double.answering (Py.lit "A small red square."))
           ∅ ∅ [POST_caption_image Double.png_upload; GET_root]).
  - reflexivity.
  - left. reflexivity.
Defined.

Lemma generate_content_receives_fixed_prompt_witness :
  tt = tt /\
  exists data img,
    read Double.png_upload = Ok data /\ Double.Image_open data = Ok img /\
    [PartText IMAGE_CAPTIONING_PROMPT; PartImage Double.png_bytes] =
    [PartText IMAGE_CAPTIONING_PROMPT; PartImage img].
Proof.
  apply (generate_content_receives_fixed_prompt Double.Image_open
           no_such_attribute Double.JSONResponse_error
           (Double.answering (Py.lit "A small red square.")) tt
           Double.png_upload tt
           [PartText IMAGE_CAPTIONING_PROMPT; PartImage Double.png_bytes]).
  simpl. right; right; left. reflexivity.
Defined.

Lemma missing_content_type_not_rejected_with_400_witness :
  caption_image Double.Image_open no_such_attribute Double.JSONResponse_error
    (Double.answering (Py.lit "A small red square.")) tt
    Double.untyped_upload [] =
  (RaiseException
     (AttributeError (Py.lit "'NoneType' object has no attribute 'startswith'")),
   []) /\
  exists ct, content_type Double.text_upload = Some ct /\
             Py.startswith ct (Py.lit "image/") = false.
Proof.
  split.
  - apply (proj1 (missing_content_type_not_rejected_with_400 Double.Image_open
                    no_such_attribute Double.JSONResponse_error
                    (Double.answering (Py.lit "A small red square.")) tt
                    Double.untyped_upload [])).
    reflexivity.
  - apply (proj2 (missing_content_type_not_rejected_with_400 Double.Image_open
                    no_such_attribute Double.JSONResponse_error
                    (Double.answering (Py.lit "A small red square.")) tt
                    Double.text_upload [])
             (Py.lit "Invalid file type. Please upload an image.")).
    reflexivity.
Defined.

Lemma caption_image_deterministic_witness :
  fst (caption_image (Double.Image_open_at (Py.lit "0x7f3a5c1b2e50"))
         no_such_attribute Double.JSONResponse_error
         (Double.answering (Py.lit "A small red square.")) tt
         Double.empty_image_upload []) =
  fst (caption_image (Double.Image_open_at (Py.lit "0x7f3a5c1b4a90"))
         no_such_attribute Double.JSONResponse_error
         (Double.answering (Py.lit "A small red square.")) tt
         Double.empty_image_upload [call_read]).
Proof.
  apply (caption_image_deterministic
           (Double.Image_open_at (Py.lit "0x7f3a5c1b2e50"))
           (Double.Image_open_at (Py.lit "0x7f3a5c1b4a90"))
           Double.JSONResponse_error Double.JSONResponse_error
           (Double.answering (Py.lit "A small red square."))
           (Double.answering (Py.lit "A small red square.")) tt
           Double.empty_image_upload [] [call_read]).
  - intros [|b data]; simpl; [exact I|reflexivity].
  - intros contents. reflexivity.
Defined.

Lemma returned_caption_is_trimmed_witness :
  let r := {| status_code := 200;
              content :=
                [(Py.lit "filename", JString (Py.lit "test.png"));
                 (Py.lit "caption", JString (Py.lit "A small red square."))] |} in
  status_code r = 200 /\
  exists caption,
    content r = [(Py.lit "filename", json_of_optional (filename Double.png_upload));
                 (Py.lit "caption", JString caption)] /\
    caption <> [] /\
    (forall c rest, caption = c :: rest -> Py.isspace c = false) /\
    (forall rest c, caption = rest ++ [c] -> Py.isspace c = false).
Proof.
  apply (returned_caption_is_trimmed Double.Image_open no_such_attribute
           Double.JSONResponse_error
           (Double.answering (Py.lit "  A small red square.
")) tt Double.png_upload []).
  reflexivity.
Defined.

Lemma caption_ignores_surrounding_whitespace_witness :
  fst (caption_image Double.Image_open no_such_attribute
         Double.JSONResponse_error
         (Double.answering (Py.lit "  A small red square.
")) tt Double.png_upload []) =
  fst (caption_image Double.Image_open no_such_attribute
         Double.JSONResponse_error
         (Double.answering (Py.lit "A small red square.")) tt
         Double.png_upload []).
Proof.
  apply (caption_ignores_surrounding_whitespace Double.Image_open
           no_such_attribute Double.JSONResponse_error
           (Double.answering (Py.lit "A small red square.")) tt
           (Double.answering (Py.lit "  A small red square.
"))
           Double.png_upload (Py.lit "image/png") []
           Double.png_bytes Double.png_bytes
           {| text := Ok (Py.lit "A small red square.") |}
           {| text := Ok (Py.lit "  A small red square.
") |}
           (Py.lit "A small red square.") (Py.lit "  ") (Py.lit "
")); reflexivity.
Defined.

Lemma generate_content_called_once_iff_decoded_witness :
  generate_calls
    (snd (caption_image Double.Image_open no_such_attribute
            Double.JSONResponse_error
            (Double.answering (Py.lit "A small red square.")) tt
            Double.png_upload [])) = 1%nat.
Proof.
  apply (proj2 (generate_content_called_once_iff_decoded Double.Image_open
                  no_such_attribute Double.JSONResponse_error
                  (Double.answering (Py.lit "A small red square.")) tt
                  Double.png_upload [])).
  exists (Py.lit "image/png"), Double.png_bytes, Double.png_bytes.
  repeat split; reflexivity.
Defined.

Lemma returns_iff_every_step_succeeds_witness :
  exists r,
    fst (caption_image Double.Image_open no_such_attribute
           Double.JSONResponse_error
           (Double.answering (Py.lit "A small red square.")) tt
           Double.png_upload []) = Return r.
Proof.
  apply (proj2 (returns_iff_every_step_succeeds Double.Image_open
                  no_such_attribute Double.JSONResponse_error
                  (Double.answering (Py.lit "A small red square.")) tt
                  Double.png_upload [])).
  exists (Py.lit "image/png"), Double.png_bytes, Double.png_bytes,
         {| text := Ok (Py.lit "A small red square.") |},
         (Py.lit "A small red square.").
  repeat split; reflexivity.
Defined.

Lemma unreadable_upload_outcome_witness :
  caption_image Double.Image_open no_such_attribute Double.JSONResponse_error
    (Double.answering (Py.lit "A small red square.")) tt
    Double.unreadable_upload [] =
  (RaiseException
     (AttributeError
        (Py.lit "module 'google.generativeai' has no attribute 'APIError'")),
   [call_read]).
Proof.
  apply (unreadable_upload_outcome Double.Image_open no_such_attribute
           Double.JSONResponse_error
           (Double.answering (Py.lit "A small red square.")) tt
           Double.unreadable_upload (Py.lit "image/png") []
           Double.read_failed); reflexivity.
Defined.

Lemma unreadable_response_text_outcome_witness :
  caption_image Double.Image_open no_such_attribute Double.JSONResponse_error
    Double.blocking tt Double.png_upload [] =
  (RaiseException
     (AttributeError
        (Py.lit "module 'google.generativeai' has no attribute 'APIError'")),
   [call_read;
    call_Image_open Double.png_bytes;
    call_generate_content tt
      [PartText IMAGE_CAPTIONING_PROMPT; PartImage Double.png_bytes]]).
Proof.
  apply (unreadable_response_text_outcome Double.Image_open no_such_attribute
           Double.JSONResponse_error Double.blocking tt
           Double.png_upload (Py.lit "image/png") []
           Double.png_bytes Double.png_bytes
           {| text := Raise Double.blocked_response |}
           Double.blocked_response); reflexivity.
Defined.

Lemma http_errors_are_400_or_500_witness :
  (400 = 400 /\
   Py.lit "Invalid file type. Please upload an image." =
     Py.lit "Invalid file type. Please upload an image." /\
   snd (caption_image Double.Image_open no_such_attribute
          Double.JSONResponse_error
          (Double.answering (Py.lit "A small red square.")) tt
          Double.text_upload []) = []) \/
  (400 = 500 /\
   no_such_attribute = exception_class /\
   exists e log',
     caption_image_try Double.Image_open Double.JSONResponse_error
       (Double.answering (Py.lit "A small red square.")) tt
       Double.text_upload [] = (Raise e, log') /\
     Py.lit "Invalid file type. Please upload an image." =
       (if exn_is_APIError e
        then Py.lit "Gemini API Error: "
        else Py.lit "An unexpected error occurred: ") ++ exn_str e).
Proof.
  apply (http_errors_are_400_or_500 Double.Image_open no_such_attribute
           Double.JSONResponse_error
           (Double.answering (Py.lit "A small red square.")) tt
           Double.text_upload [] 400
           (Py.lit "Invalid file type. Please upload an image.")).
  reflexivity.
Defined.

Lemma upload_read_iff_image_prefix_witness :
  In call_read
    (snd (caption_image Double.Image_open no_such_attribute
            Double.JSONResponse_error
            (Double.answering (Py.lit "A small red square.")) tt
            Double.png_upload [])).
Proof.
  apply (proj2 (upload_read_iff_image_prefix Double.Image_open
                  no_such_attribute Double.JSONResponse_error
                  (Double.answering (Py.lit "A small red square.")) tt
                  Double.png_upload)).
  exists (Py.lit "png"). reflexivity.
Defined.

Lemma model_construction_failure_is_fatal_witness :
  let fatal :=
    RuntimeError (Py.lit
      "Failed to initialize Gemini model. Make sure 'gemini-2.5-flash-preview-04-17' is available and your API key is correct. Error: 404 model not found") in
  startup Double.load_dotenv Double.genai_configure Double.failing_GenerativeModel
    {[ GOOGLE_API_KEY := Py.lit "secret" ]} = Raise fatal /\
  run Double.Image_open Double.load_dotenv Double.genai_configure
    Double.failing_GenerativeModel no_such_attribute Double.JSONResponse_error
    (Double.answering (Py.lit "A small red square."))
    {[ GOOGLE_API_KEY := Py.lit "secret" ]}
    [POST_caption_image Double.png_upload] = Raise fatal /\
  Py.contains (exn_str fatal) (Py.lit "404 model not found") = true.
Proof.
  apply (model_construction_failure_is_fatal Double.Image_open Double.load_dotenv
           Double.genai_configure Double.failing_GenerativeModel
           no_such_attribute Double.JSONResponse_error
           (Double.answering (Py.lit "A small red square."))
           {[ GOOGLE_API_KEY := Py.lit "secret" ]}
           {[ GOOGLE_API_KEY := Py.lit "secret" ]} (Py.lit "secret")
           Double.model_not_found [POST_caption_image Double.png_upload]).
  - reflexivity.
  - vm_compute. reflexivity.
  - vm_compute. discriminate.
  - reflexivity.
  - reflexivity.
Defined.

Lemma startup_succeeds_iff_witness :
  startup Double.load_dotenv Double.genai_configure Double.GenerativeModel
    {[ GOOGLE_API_KEY := Py.lit "secret" ]} = Ok tt.
Proof.
  apply (proj2 (startup_succeeds_iff Double.load_dotenv Double.genai_configure
                  Double.GenerativeModel
                  {[ GOOGLE_API_KEY := Py.lit "secret" ]} tt)).
  exists {[ GOOGLE_API_KEY := Py.lit "secret" ]}, (Py.lit "secret").
  split; [reflexivity|].
  split; [vm_compute; reflexivity|].
  split; [vm_compute; discriminate|].
  split; reflexivity.
Defined.

Lemma startup_failure_cases_witness :
  Double.failing_load_dotenv ∅ = Raise Double.dotenv_not_utf8 \/
  exists environ',
    Double.failing_load_dotenv ∅ = Ok environ' /\
    (((getenv environ' GOOGLE_API_KEY = None \/
       getenv environ' GOOGLE_API_KEY = Some []) /\
      Double.dotenv_not_utf8 = ValueError (Py.lit
            "GOOGLE_API_KEY not found in environment variables. Please set it in a .env file.")) \/
     (exists key,
        getenv environ' GOOGLE_API_KEY = Some key /\ key <> [] /\
        Double.genai_configure key = Raise Double.dotenv_not_utf8) \/
     (exists key e',
        getenv environ' GOOGLE_API_KEY = Some key /\ key <> [] /\
        Double.genai_configure key = Ok tt /\
        Double.GenerativeModel MODEL_NAME = Raise e' /\
        Double.dotenv_not_utf8 =
          RuntimeError
            (Py.lit "Failed to initialize Gemini model. Make sure 'gemini-2.5-flash-preview-04-17' is available and your API key is correct. Error: "
             ++ exn_str e'))).
Proof.
  apply (startup_failure_cases Double.failing_load_dotenv Double.genai_configure
           Double.GenerativeModel ∅ Double.dotenv_not_utf8).
  reflexivity.
Defined.

Example run_example :
  run Double.Image_open Double.load_dotenv Double.genai_configure
      Double.GenerativeModel no_such_attribute Double.JSONResponse_error
      (Double.answering (Py.lit "A small red square."))
      {[ GOOGLE_API_KEY := Py.lit "secret" ]}
      [POST_caption_image Double.text_upload; GET_root] =
  Ok ([RaiseHTTPException 400 (Py.lit "Invalid file type. Please upload an image.");
       read_root], []).
Proof. vm_compute. reflexivity. Qed.
